(** * kedro.io.cached_dataset: the caching dataset wrapper

    A shallow embedding of [CachedDataset] (src/kedro/io/cached_dataset.py)
    and the properties of its construction, read, write, existence and
    teardown paths.

    Python objects are mutable, so every method is a computation over an
    explicit state: the object it runs on together with the chronological
    record of the calls it makes on its collaborators.  Exceptions are a
    second kind of outcome; a raised exception keeps the mutations made so
    far, as in Python. *)

From stdpp Require Import base option list strings gmap.

Set Default Proof Using "Type".

(** ** Python-level data *)

(** Scalar values as they appear in a catalog entry (YAML scalars). *)
Inductive pyvalue :=
| PyNone
| PyBool (b : bool)
| PyInt (z : Z)
| PyStr (s : string).

(** A [dict] with string keys, the shape of a dataset configuration. *)
Abbreviation dict := (gmap string pyvalue).

(** Exceptions: the two classes the wrapper and the in-memory store raise
    themselves, and any other class a delegate may raise. *)
Inductive exn :=
| ValueError (msg : string)
| DatasetError (msg : string)
| OtherError (cls msg : string).

(** Outcome of a call: a returned value or a raised exception. *)
Inductive result (A : Type) :=
| Ok (a : A)
| Raise (e : exn).
Arguments Ok {A} a.
Arguments Raise {A} e.

(** [kedro.io.core.Version], a named pair of optional version identifiers. *)
Module Version.
Record t := { load : option string; save : option string }.
End Version.

(** Modelled from the spec: [VERSIONED_FLAG_KEY] of kedro.io.core is imported
    by the source but not defined in it; section 6 of the spec names the
    reserved key of a configuration mapping "versioned" (and so does the
    catalog entry in the class docstring). *)
Definition VERSIONED_FLAG_KEY : string := "versioned".

(** ** Observable calls *)

Inductive component := Cache | Dataset.

Inductive method (Any : Type) :=
| Load
| Save (data : Any)
| Exists
| Release.
Arguments Load {Any}.
Arguments Save {Any} data.
Arguments Exists {Any}.
Arguments Release {Any}.

(** What a run leaves behind: calls on the cache body ([self._cache]) or on
    the delegate ([self._dataset]), warnings sent to the logger, and
    requests to the dataset factory [AbstractDataset.from_config]. *)
Inductive event (Any : Type) :=
| Call (c : component) (m : method Any)
| Warning (msg : string)
| Resolve (name : string) (config : dict) (load_version save_version : option string).
Arguments Call {Any} c m.
Arguments Warning {Any} msg.
Arguments Resolve {Any} name config load_version save_version.

Definition is_delegate_call {Any} (e : event Any) : bool :=
  match e with Call Dataset _ => true | _ => false end.

Definition is_delegate_load {Any} (e : event Any) : bool :=
  match e with Call Dataset Load => true | _ => false end.

Definition is_delegate_release {Any} (e : event Any) : bool :=
  match e with Call Dataset Release => true | _ => false end.

(** Calls on a collaborator, cache body or delegate. *)
Definition is_call {Any} (e : event Any) : bool :=
  match e with Call _ _ => true | _ => false end.

(** Calls that can change what a collaborator holds. *)
Definition is_mutation {Any} (e : event Any) : bool :=
  match e with
  | Call _ (Save _) | Call _ Release => true
  | _ => false
  end.

(** Number of times the delegate's [load] was invoked in a record. *)
Definition delegate_loads {Any} (t : list (event Any)) : nat :=
  length (List.filter is_delegate_load t).
Arguments delegate_loads {Any} !t /.

(** ** Computations over a mutable subject *)

Record run (Any T : Type) := Run { subject : T; trace : list (event Any) }.
Arguments Run {Any T} subject trace.
Arguments subject {Any T} r.
Arguments trace {Any T} r.

Definition M (Any T A : Type) : Type := run Any T → result A * run Any T.

Definition ret {Any T A} (a : A) : M Any T A := λ σ, (Ok a, σ).

Definition raise {Any T A} (e : exn) : M Any T A := λ σ, (Raise e, σ).

Definition bind {Any T A B} (m : M Any T A) (k : A → M Any T B) : M Any T B :=
  λ σ, match m σ with
       | (Ok a, σ') => k a σ'
       | (Raise e, σ') => (Raise e, σ')
       end.

Definition emit {Any T} (e : event Any) : M Any T unit :=
  λ σ, (Ok tt, Run (subject σ) (trace σ ++ [e])).

(** The object the computation runs on, as it is now. *)
Definition this {Any T} : M Any T T := λ σ, (Ok (subject σ), σ).

Notation "x <- m ;; k" := (bind m (λ x, k))
  (at level 100, m at next level, right associativity, only parsing).
Notation "m ;; k" := (bind m (λ _, k))
  (at level 100, right associativity, only parsing).

(** ** The data-resource contract *)

(** [AbstractDataset] as the wrapper uses it: each operation acts on the
    state [S] of the object (for a delegate, everything its I/O can see) and
    either returns or raises. *)
Class AbstractDataset (Any S : Type) := {
  ds_load : S → result Any * S;
  ds_save : Any → S → result unit * S;
  ds_exists : S → result bool * S;
  ds_release : S → result unit * S
}.

(** ** The cache body *)

(** Modelled from the spec: a write into the cache body can fail.  Section
    6 of the spec gives [save] the result "void or fails" for the delegate
    and the cache body alike, sections 4.2 and 7 name the failure of a cache
    write, and the glossary makes the copy policy the rule for values
    entering the cache body.  [copy_error mode data] is the exception that
    storing [data] under the copy mode [mode] raises, [None] when the value
    is stored. *)
Class CopyPolicy (Any : Type) := {
  copy_error : option string → Any → option exn
}.

Module MemoryDataset.
Section store.
Context {Any : Type} `{!CopyPolicy Any}.

(** Modelled from the spec: kedro/io/memory_dataset.py is not part of the
    sources at hand.  Section 2 of the spec describes the cache body as a
    volatile in-process store with the data-resource contract and a copy
    policy; [release] clears its contents (section 4.5) and [exists]
    tells whether it holds data (section 4.2).  Values are immutable
    terms here, so a deep copy, a shallow copy and the reference denote
    the same value: a write that the copy policy lets through stores the
    value itself, and a write it refuses raises and leaves the store as it
    was. *)
Record t := { _data : option Any; _copy_mode : option string }.

Definition __init__ (copy_mode : option string) : t :=
  {| _data := None; _copy_mode := copy_mode |}.

Definition load (m : t) : result Any * t :=
  match _data m with
  | Some data => (Ok data, m)
  | None => (Raise (DatasetError "Data for MemoryDataset has not been saved yet."), m)
  end.

Definition save (data : Any) (m : t) : result unit * t :=
  match copy_error (_copy_mode m) data with
  | Some e => (Raise e, m)
  | None => (Ok tt, {| _data := Some data; _copy_mode := _copy_mode m |})
  end.

Definition exists_ (m : t) : result bool * t :=
  (Ok (match _data m with Some _ => true | None => false end), m).

Definition release (m : t) : result unit * t :=
  (Ok tt, {| _data := None; _copy_mode := _copy_mode m |}).
End store.
Arguments t : clear implicits.
End MemoryDataset.

#[export] Instance MemoryDataset_contract {Any} `{!CopyPolicy Any} :
  AbstractDataset Any (MemoryDataset.t Any) := {
  ds_load := MemoryDataset.load;
  ds_save := MemoryDataset.save;
  ds_exists := MemoryDataset.exists_;
  ds_release := MemoryDataset.release
}.

(** ** Caller-owned dictionaries *)

(** A [dict] handed to the constructor is the caller's object: the
    constructor receives a reference to it, and what it writes through the
    reference is visible to the caller afterwards.  The heap maps
    references to the dictionaries they denote. *)
Abbreviation loc := positive.
Abbreviation heap := (gmap positive (gmap string pyvalue)).

(** Python references are never dangling; an unallocated one reads as the
    empty dictionary. *)
Definition deref (h : heap) (l : loc) : dict := default ∅ (h !! l).

(** [key in config] *)
Definition contains {Any} (config : loc) (key : string) : M Any heap bool :=
  λ σ, (Ok (bool_decide (is_Some (deref (subject σ) config !! key))), σ).

(** [config[key] = value] *)
Definition setitem {Any} (config : loc) (key : string) (value : pyvalue) : M Any heap unit :=
  λ σ, (Ok tt, Run (<[config := <[key := value]> (deref (subject σ) config)]> (subject σ)) (trace σ)).

(** ** The wrapper *)

Module CachedDataset.
Section wrapper.
Context {Any D : Type} `{!AbstractDataset Any D} `{!CopyPolicy Any}.

(** The instance attributes set by [__init__]. *)
Record t := {
  _EPHEMERAL : bool;
  _dataset : D;
  _cache : MemoryDataset.t Any;
  metadata : option dict
}.

(** Class attribute: the wrapper cannot be used with a runner that spreads
    datasets over several processes. *)
Definition _SINGLE_PROCESS : bool := true.

(** The [dataset] argument of [__init__], by the two [isinstance] tests
    the constructor makes on it. *)
Inductive argument :=
| ADict (config : loc)
| ADataset (dataset : D)
| AnyOther (value : pyvalue).

(** [AbstractDataset.from_config(name, config, load_version, save_version)],
    the dataset factory of kedro.io.core: taken as a parameter, it reads
    the configuration and returns a dataset or raises. *)
Variable from_config : string → dict → option string → option string → result D.

(** [str(self)], inherited from [AbstractDataset]: taken as a parameter. *)
Variable __str__ : t → string.

(** The wrapper once its cache body, respectively its delegate, has moved
    to a new state; the other attributes are untouched. *)
Definition with_cache (c : MemoryDataset.t Any) (self : t) : t :=
  {| _EPHEMERAL := _EPHEMERAL self; _dataset := _dataset self;
     _cache := c; metadata := metadata self |}.

Definition with_dataset (d : D) (self : t) : t :=
  {| _EPHEMERAL := _EPHEMERAL self; _dataset := d;
     _cache := _cache self; metadata := metadata self |}.

(** [self._cache.<method>()] *)
Definition on_cache {A} (m : method Any)
    (op : MemoryDataset.t Any → result A * MemoryDataset.t Any) : M Any t A :=
  λ σ, let '(r, c) := op (_cache (subject σ)) in
       (r, Run (with_cache c (subject σ)) (trace σ ++ [Call Cache m])).

(** [self._dataset.<method>()] *)
Definition on_dataset {A} (m : method Any) (op : D → result A * D) : M Any t A :=
  λ σ, let '(r, d) := op (_dataset (subject σ)) in
       (r, Run (with_dataset d (subject σ)) (trace σ ++ [Call Dataset m])).

(** [AbstractDataset.from_config("_cached", config, ...)]: the factory is
    handed the dictionary as it is at the time of the call. *)
Definition resolve (name : string) (config : loc)
    (load_version save_version : option string) : M Any heap D :=
  λ σ, let cfg := deref (subject σ) config in
       (from_config name cfg load_version save_version,
        Run (subject σ) (trace σ ++ [Resolve name cfg load_version save_version])).

(** The two exceptions the wrapper raises itself, both [ValueError]: the
    configuration error for a wrapped dataset that declares versioning,
    and the argument error for a [dataset] of the wrong type. *)
Definition duplicate_versioning : exn :=
  ValueError
    "Cached datasets should specify that they are versioned in the 'CachedDataset', not in the wrapped dataset.".

Definition invalid_argument : exn :=
  ValueError
    "The argument type of 'dataset' should be either a dict/YAML representation of the dataset, or the actual dataset object.".

(** [CachedDataset._from_config].  [Version] is a named tuple of two
    fields, so [if version] holds exactly when a version was given. *)
Definition _from_config (config : loc) (version : option Version.t) : M Any heap D :=
  versioned <- contains config VERSIONED_FLAG_KEY ;;
  if (versioned : bool) then
    raise duplicate_versioning
  else
    match version with
    | Some version =>
        setitem config VERSIONED_FLAG_KEY (PyBool true) ;;
        resolve "_cached" config (Version.load version) (Version.save version)
    | None => resolve "_cached" config None None
    end.

(** [CachedDataset.__init__] *)
Definition __init__ (dataset : argument) (version : option Version.t)
    (copy_mode : option string) (metadata : option dict) : M Any heap t :=
  _dataset <- match dataset with
              | ADict config => _from_config config version
              | ADataset dataset => ret dataset
              | AnyOther _ => raise invalid_argument
              end ;;
  ret {| _EPHEMERAL := true;
         _dataset := _dataset;
         _cache := MemoryDataset.__init__ copy_mode;
         metadata := metadata |}.

(** [CachedDataset._release] *)
Definition _release : M Any t unit :=
  on_cache Release ds_release ;;
  on_dataset Release ds_release.

(** [CachedDataset._load] *)
Definition _load : M Any t Any :=
  hit <- on_cache Exists ds_exists ;;
  data <- (if (hit : bool) then on_cache Load ds_load
           else on_dataset Load ds_load) ;;
  filled <- on_cache Exists ds_exists ;;
  (if negb filled then on_cache (Save data) (ds_save data) else ret tt) ;;
  ret data.

(** [CachedDataset._save] *)
Definition _save (data : Any) : M Any t unit :=
  on_dataset (Save data) (ds_save data) ;;
  on_cache (Save data) (ds_save data).

(** [CachedDataset._exists]: Python's [or] evaluates its right operand
    only when the left one is false. *)
Definition _exists : M Any t bool :=
  cached <- on_cache Exists ds_exists ;;
  if (cached : bool) then ret true else on_dataset Exists ds_exists.

(** [CachedDataset.__getstate__]: returns [self.__dict__]. *)
Definition __getstate__ : M Any t t :=
  self <- this ;;
  emit (Warning (__str__ self +:+ ": clearing cache to pickle.")) ;;
  on_cache Release ds_release ;;
  this.
End wrapper.
Arguments t : clear implicits.
Arguments argument : clear implicits.
End CachedDataset.

(** ** States named in the statements *)

(** The cache body once [data] has been stored in it. *)
Definition stored {Any} (data : Any) (c : MemoryDataset.t Any) : MemoryDataset.t Any :=
  {| MemoryDataset._data := Some data;
     MemoryDataset._copy_mode := MemoryDataset._copy_mode c |}.

(** The cache body after [release]. *)
Definition cleared {Any} (c : MemoryDataset.t Any) : MemoryDataset.t Any :=
  {| MemoryDataset._data := None;
     MemoryDataset._copy_mode := MemoryDataset._copy_mode c |}.

(** What the cache body holds, if anything. *)
Definition cached {Any D} (σ : run Any (CachedDataset.t Any D)) : option Any :=
  MemoryDataset._data (CachedDataset._cache (subject σ)).

(** The state of the delegate. *)
Definition delegate {Any D} (σ : run Any (CachedDataset.t Any D)) : D :=
  CachedDataset._dataset (subject σ).

(** The exception, if any, that writing [data] into the cache body of the
    wrapper raises. *)
Definition write_error {Any D} `{!CopyPolicy Any}
    (σ : run Any (CachedDataset.t Any D)) (data : Any) : option exn :=
  copy_error (MemoryDataset._copy_mode (CachedDataset._cache (subject σ))) data.

(** ** A concrete delegate

    A file-like dataset over natural numbers, used to run the wrapper on
    explicit inputs: what is persisted, whether the device is reachable,
    and how many handles the object keeps open. *)
Module Demo.
Record file := { content : option nat; offline : bool; handles : nat }.

(** The copy policy for numbers: the modes the constructor documents are
    "deepcopy", "copy" and "assign"; a number has no [copy] method, and a
    mode outside the three is refused. *)
Definition number_copy_error (mode : option string) (data : nat) : option exn :=
  match mode with
  | None => None
  | Some mode =>
      if bool_decide (mode = "deepcopy") || bool_decide (mode = "assign") then None
      else if bool_decide (mode = "copy")
           then Some (DatasetError "'int' object has no attribute 'copy'")
           else Some (DatasetError "Invalid copy mode")
  end.

#[export] Instance number_policy : CopyPolicy nat := {
  copy_error := number_copy_error
}.

Definition io_error : exn := OtherError "OSError" "device unavailable".

Definition file_load (f : file) : result nat * file :=
  if offline f then (Raise io_error, f)
  else match content f with
       | Some data =>
           (Ok data, {| content := content f; offline := false; handles := S (handles f) |})
       | None => (Raise (DatasetError "no such file"), f)
       end.

Definition file_save (data : nat) (f : file) : result unit * file :=
  if offline f then (Raise io_error, f)
  else (Ok tt, {| content := Some data; offline := false; handles := S (handles f) |}).

Definition file_exists (f : file) : result bool * file :=
  (Ok (match content f with Some _ => true | None => false end), f).

Definition file_release (f : file) : result unit * file :=
  (Ok tt, {| content := content f; offline := offline f; handles := 0 |}).

#[export] Instance file_contract : AbstractDataset nat file := {
  ds_load := file_load;
  ds_save := file_save;
  ds_exists := file_exists;
  ds_release := file_release
}.

(** A factory that builds an empty, reachable file from any configuration
    with a textual "type". *)
Definition factory (name : string) (config : dict)
    (load_version save_version : option string) : result file :=
  match config !! "type" with
  | Some (PyStr _) => Ok {| content := None; offline := false; handles := 0 |}
  | _ => Raise (DatasetError "An exception occurred when parsing config for dataset")
  end.

Definition render (self : CachedDataset.t nat file) : string := "CachedDataset()".

(** A wrapper over [f] whose cache body holds [cached]. *)
Definition wrapper (f : file) (cached : option nat) : CachedDataset.t nat file :=
  {| CachedDataset._EPHEMERAL := true;
     CachedDataset._dataset := f;
     CachedDataset._cache := {| MemoryDataset._data := cached; MemoryDataset._copy_mode := None |};
     CachedDataset.metadata := None |}.

Definition disk (data : nat) : file :=
  {| content := Some data; offline := false; handles := 1 |}.

Definition unplugged (data : nat) : file :=
  {| content := Some data; offline := true; handles := 1 |}.

(** A catalog entry at reference 1. *)
Definition entry : dict := {[ "type" := PyStr "pandas.CSVDataset" ]}.
Definition memory : heap := {[ 1%positive := entry ]}.

(** The same entry declaring itself unversioned, at reference 2. *)
Definition flagged : dict := <[ VERSIONED_FLAG_KEY := PyBool false ]> entry.
Definition flagged_memory : heap := {[ 2%positive := flagged ]}.

Definition latest : Version.t := {| Version.load := None; Version.save := None |}.
End Demo.

(** ** A delegate out of reach

    A dataset whose every operation raises, as a store whose device is
    gone. *)
Module Unreachable.
Definition refuse {A : Type} (u : unit) : result A * unit := (Raise Demo.io_error, u).

#[export] Instance contract : AbstractDataset nat unit := {
  ds_load := refuse;
  ds_save := λ _, refuse;
  ds_exists := refuse;
  ds_release := refuse
}.

Definition wrapper (cached : option nat) : CachedDataset.t nat unit :=
  {| CachedDataset._EPHEMERAL := true;
     CachedDataset._dataset := tt;
     CachedDataset._cache := {| MemoryDataset._data := cached; MemoryDataset._copy_mode := None |};
     CachedDataset.metadata := None |}.
End Unreachable.

(** ** Sequences of calls *)

(** What a user of the wrapper can ask of it. *)
Inductive request (Any : Type) :=
| DoLoad
| DoSave (data : Any)
| DoExists
| DoRelease
| DoGetstate.
Arguments DoLoad {Any}.
Arguments DoSave {Any} data.
Arguments DoExists {Any}.
Arguments DoRelease {Any}.
Arguments DoGetstate {Any}.

(** Requests after which the cache body is empty. *)
Definition clears {Any} (r : request Any) : bool :=
  match r with DoRelease | DoGetstate => true | _ => false end.

(** The values a sequence of requests asks to save, in order. *)
Definition saves {Any} (rs : list (request Any)) : list Any :=
  omap (λ r, match r with DoSave data => Some data | _ => None end) rs.

(** The number of loads in a sequence of requests. *)
Definition loads {Any} (rs : list (request Any)) : nat :=
  length (List.filter (λ r, match r with DoLoad => true | _ => false end) rs).

(** The values the delegate was asked to save, in order. *)
Definition delegate_saves {Any} (t : list (event Any)) : list Any :=
  omap (λ e, match e with Call Dataset (Save data) => Some data | _ => None end) t.

(** Reads of the delegate: [load] and [exists]. *)
Definition is_delegate_query {Any} (e : event Any) : bool :=
  match e with Call Dataset Load | Call Dataset Exists => true | _ => false end.

Definition delegate_queries {Any} (t : list (event Any)) : list (event Any) :=
  List.filter is_delegate_query t.

Section callers.
Context {Any D : Type} `{!AbstractDataset Any D} `{!CopyPolicy Any}.
Variable __str__ : CachedDataset.t Any D → string.

(** One call made by a caller that carries on whatever the call returns
    or raises: only its effect on the wrapper and on the record is kept. *)
Definition serve (r : request Any) (σ : run Any (CachedDataset.t Any D)) :
    run Any (CachedDataset.t Any D) :=
  match r with
  | DoLoad => snd (CachedDataset._load σ)
  | DoSave data => snd (CachedDataset._save data σ)
  | DoExists => snd (CachedDataset._exists σ)
  | DoRelease => snd (CachedDataset._release σ)
  | DoGetstate => snd (CachedDataset.__getstate__ __str__ σ)
  end.

(** A sequence of calls, first to last. *)
Definition serve_all (rs : list (request Any)) (σ : run Any (CachedDataset.t Any D)) :
    run Any (CachedDataset.t Any D) :=
  foldl (λ σ r, serve r σ) σ rs.
End callers.

(** ** Delegates that persist one value *)

(** A delegate that behaves as a store of one value, [content] telling what
    it persists: [load] returns the persisted value and changes nothing
    persisted, an accepted [save] persists its argument, a refused one
    changes nothing persisted, and neither [exists] nor [release] does. *)
Class PersistentStore {Any D : Type} `{!AbstractDataset Any D}
    (content : D → option Any) : Prop := {
  load_reads : ∀ d r d',
    ds_load d = (r, d') → content d' = content d ∧ ∀ v, r = Ok v → content d = Some v;
  save_writes : ∀ v d r d',
    ds_save v d = (r, d') →
    content d' = match r with Ok _ => Some v | Raise _ => content d end;
  exists_keeps : ∀ d, content (snd (ds_exists d)) = content d;
  release_keeps : ∀ d, content (snd (ds_release d)) = content d
}.

(** The cache body holds nothing but what the delegate persists. *)
Definition coherent {Any D : Type} (content : D → option Any)
    (σ : run Any (CachedDataset.t Any D)) : Prop :=
  ∀ x, cached σ = Some x → content (delegate σ) = Some x.

(** The wrapper [__init__] builds over a dataset object. *)
Definition fresh {Any D} (d : D) (copy_mode : option string) (metadata : option dict) :
    CachedDataset.t Any D :=
  {| CachedDataset._EPHEMERAL := true;
     CachedDataset._dataset := d;
     CachedDataset._cache := MemoryDataset.__init__ copy_mode;
     CachedDataset.metadata := metadata |}.

(** * Properties *)

Import CachedDataset.

(** Unfolds one method into the primitive steps it is made of. *)
Ltac steps :=
  unfold _load, _save, _exists, _release, __getstate__, __init__, _from_config,
    on_cache, on_dataset, resolve, contains, setitem, bind, ret, raise, emit, this;
  simpl; unfold MemoryDataset.save; simpl.

(** Exposes the attributes of the wrapper a run acts on. *)
Ltac open_run σ :=
  let ephemeral := fresh "ephemeral" in
  let d := fresh "d" in
  let data := fresh "data" in
  let mode := fresh "mode" in
  let meta := fresh "meta" in
  let t := fresh "t" in
  destruct σ as [[ephemeral d [data mode] meta] t];
  unfold cached, delegate, write_error, stored, cleared in *; simpl in *.

(** Splits the outcome of every call on the delegate met in the goal. *)
Ltac split_delegate :=
  repeat match goal with
         | |- context [ds_load ?d] =>
             let H := fresh "Hload" in destruct (ds_load d) as [[?|?] ?] eqn:H; simpl
         | |- context [ds_save ?v ?d] =>
             let H := fresh "Hsave" in destruct (ds_save v d) as [[[]|?] ?] eqn:H; simpl
         | |- context [ds_exists ?d] =>
             let H := fresh "Hexists" in destruct (ds_exists d) as [[?|?] ?] eqn:H; simpl
         | |- context [ds_release ?d] =>
             let H := fresh "Hrelease" in destruct (ds_release d) as [[[]|?] ?] eqn:H; simpl
         | |- context [copy_error ?m ?v] =>
             let H := fresh "Hcopy" in destruct (copy_error m v) as [?|] eqn:H; simpl
         end.

Section records.
Context {Any : Type}.
Implicit Types t : list (event Any).

Lemma delegate_loads_app t1 t2 :
  delegate_loads (t1 ++ t2) = delegate_loads t1 + delegate_loads t2.
Proof. unfold delegate_loads. by rewrite List.filter_app, length_app. Qed.
End records.

Section primitive_steps.
Context {Any D : Type} `{!AbstractDataset Any D} `{!CopyPolicy Any}.
Implicit Types (σ : run Any (CachedDataset.t Any D)) (data : Any) (d : D).

Lemma load_hit σ data :
  cached σ = Some data →
  _load σ = (Ok data,
             Run (subject σ)
                 (trace σ ++ [Call Cache Exists; Call Cache Load; Call Cache Exists])).
Proof.
  open_run σ. intros ->. steps.
  by rewrite <- !app_assoc.
Qed.

Lemma load_miss σ data d' :
  cached σ = None →
  ds_load (delegate σ) = (Ok data, d') →
  write_error σ data = None →
  _load σ = (Ok data,
             Run (with_cache (stored data (_cache (subject σ)))
                             (with_dataset d' (subject σ)))
                 (trace σ ++ [Call Cache Exists; Call Dataset Load;
                              Call Cache Exists; Call Cache (Save data)])).
Proof.
  open_run σ. intros -> Hload Hcopy. steps. rewrite Hload. simpl.
  rewrite Hcopy. simpl. by rewrite <- !app_assoc.
Qed.

Lemma load_miss_refused σ data d' e :
  cached σ = None →
  ds_load (delegate σ) = (Ok data, d') →
  write_error σ data = Some e →
  _load σ = (Raise e,
             Run (with_dataset d' (subject σ))
                 (trace σ ++ [Call Cache Exists; Call Dataset Load;
                              Call Cache Exists; Call Cache (Save data)])).
Proof.
  open_run σ. intros -> Hload Hcopy. steps. rewrite Hload. simpl.
  rewrite Hcopy. simpl. by rewrite <- !app_assoc.
Qed.

Lemma load_miss_raise σ e d' :
  cached σ = None →
  ds_load (delegate σ) = (Raise e, d') →
  _load σ = (Raise e,
             Run (with_dataset d' (subject σ))
                 (trace σ ++ [Call Cache Exists; Call Dataset Load])).
Proof.
  open_run σ. intros -> Hload. steps. rewrite Hload. simpl.
  by rewrite <- !app_assoc.
Qed.

Lemma save_ok σ data d' :
  ds_save data (delegate σ) = (Ok tt, d') →
  write_error σ data = None →
  _save data σ = (Ok tt,
                  Run (with_cache (stored data (_cache (subject σ)))
                                  (with_dataset d' (subject σ)))
                      (trace σ ++ [Call Dataset (Save data); Call Cache (Save data)])).
Proof.
  open_run σ. intros Hsave Hcopy. steps. rewrite Hsave. simpl.
  rewrite Hcopy. simpl. by rewrite <- !app_assoc.
Qed.

Lemma save_refused σ data d' e :
  ds_save data (delegate σ) = (Ok tt, d') →
  write_error σ data = Some e →
  _save data σ = (Raise e,
                  Run (with_dataset d' (subject σ))
                      (trace σ ++ [Call Dataset (Save data); Call Cache (Save data)])).
Proof.
  open_run σ. intros Hsave Hcopy. steps. rewrite Hsave. simpl.
  rewrite Hcopy. simpl. by rewrite <- !app_assoc.
Qed.

Lemma save_raise σ data e d' :
  ds_save data (delegate σ) = (Raise e, d') →
  _save data σ = (Raise e,
                  Run (with_dataset d' (subject σ))
                      (trace σ ++ [Call Dataset (Save data)])).
Proof. open_run σ. intros Hsave. steps. by rewrite Hsave. Qed.

Lemma exists_hit σ data :
  cached σ = Some data →
  _exists σ = (Ok true, Run (subject σ) (trace σ ++ [Call Cache Exists])).
Proof. open_run σ. by intros ->. Qed.

Lemma exists_miss σ :
  cached σ = None →
  _exists σ = (fst (ds_exists (delegate σ)),
               Run (with_dataset (snd (ds_exists (delegate σ))) (subject σ))
                   (trace σ ++ [Call Cache Exists; Call Dataset Exists])).
Proof.
  open_run σ. intros ->. steps. destruct (ds_exists d) as [r d']. simpl.
  by rewrite <- !app_assoc.
Qed.

Lemma release_steps σ :
  _release σ = (fst (ds_release (delegate σ)),
                Run (with_dataset (snd (ds_release (delegate σ)))
                                  (with_cache (cleared (_cache (subject σ))) (subject σ)))
                    (trace σ ++ [Call Cache Release; Call Dataset Release])).
Proof.
  open_run σ. steps. destruct (ds_release d) as [r d']. simpl.
  by rewrite <- !app_assoc.
Qed.

Lemma getstate_steps (__str__ : CachedDataset.t Any D → string) σ :
  __getstate__ __str__ σ =
    (Ok (with_cache (cleared (_cache (subject σ))) (subject σ)),
     Run (with_cache (cleared (_cache (subject σ))) (subject σ))
         (trace σ ++ [Warning (__str__ (subject σ) +:+ ": clearing cache to pickle.");
                      Call Cache Release])).
Proof. open_run σ. steps. by rewrite <- !app_assoc. Qed.

(** On an empty cache body [_load] calls the delegate's [load], whatever
    comes of it and of the write that follows. *)
Lemma load_miss_reads σ :
  cached σ = None →
  ∃ rest, trace (snd (_load σ))
          = trace σ ++ [Call Cache Exists; Call Dataset Load] ++ rest
    ∧ delegate (snd (_load σ)) = snd (ds_load (delegate σ)).
Proof.
  intros Hc. destruct (ds_load (delegate σ)) as [[v|e] d'] eqn:Hload.
  - destruct (write_error σ v) as [e|] eqn:Hcopy.
    + rewrite (load_miss_refused σ v d' e Hc Hload Hcopy).
      by exists [Call Cache Exists; Call Cache (Save v)].
    + rewrite (load_miss σ v d' Hc Hload Hcopy).
      by exists [Call Cache Exists; Call Cache (Save v)].
  - rewrite (load_miss_raise σ e d' Hc Hload). by exists [].
Qed.
End primitive_steps.

Section read_write.
Context {Any D : Type} `{!AbstractDataset Any D} `{!CopyPolicy Any}.
Implicit Types (σ : run Any (CachedDataset.t Any D)) (v data : Any) (d : D).

(** C1, as the code has it.  [load] asks the cache body first.  On a hit
    it returns the cached value and makes no call on the delegate.  On a
    miss it reads the delegate and writes the value read into the cache
    body: if the cache body takes the value, [load] returns it; if the
    write raises, the exception reaches the caller, the value is not
    returned and the cache body stays empty.  Hence, over a delegate whose
    [load] returns [v] and a cache body that takes [v], two loads in a row
    on a wrapper with an empty cache body both return [v], the delegate's
    [load] running once, in the first; and from any state, a load that
    returned a value is followed by a load that returns the same value
    without running the delegate's [load]. *)
Theorem load_consults_cache_first σ :
  (∀ data, cached σ = Some data →
     _load σ = (Ok data,
                Run (subject σ)
                    (trace σ ++ [Call Cache Exists; Call Cache Load; Call Cache Exists])))
  ∧ (∀ v d', cached σ = None → ds_load (delegate σ) = (Ok v, d') →
     write_error σ v = None →
     _load σ = (Ok v,
                Run (with_cache (stored v (_cache (subject σ)))
                                (with_dataset d' (subject σ)))
                    (trace σ ++ [Call Cache Exists; Call Dataset Load;
                                 Call Cache Exists; Call Cache (Save v)])))
  ∧ (∀ v d' e, cached σ = None → ds_load (delegate σ) = (Ok v, d') →
     write_error σ v = Some e →
     _load σ = (Raise e,
                Run (with_dataset d' (subject σ))
                    (trace σ ++ [Call Cache Exists; Call Dataset Load;
                                 Call Cache Exists; Call Cache (Save v)])))
  ∧ (∀ v d', cached σ = None → ds_load (delegate σ) = (Ok v, d') →
     write_error σ v = None →
     ∃ σ1 σ2, _load σ = (Ok v, σ1) ∧ _load σ1 = (Ok v, σ2)
       ∧ delegate_loads (trace σ1) = delegate_loads (trace σ) + 1
       ∧ delegate_loads (trace σ2) = delegate_loads (trace σ1)
       ∧ delegate σ2 = d')
  ∧ (∀ x σ1, _load σ = (Ok x, σ1) →
     ∃ σ2, _load σ1 = (Ok x, σ2)
       ∧ delegate_loads (trace σ1) ≤ delegate_loads (trace σ) + 1
       ∧ delegate_loads (trace σ2) = delegate_loads (trace σ1)).
Proof.
  split; [exact (load_hit σ)|].
  split; [exact (load_miss σ)|].
  split; [intros v d' e; exact (load_miss_refused σ v d' e)|].
  split.
  - intros v d' Hempty Hload Hcopy.
    eexists _, _. split; [exact (load_miss σ v d' Hempty Hload Hcopy)|].
    split; [by apply load_hit|].
    simpl. rewrite !delegate_loads_app. simpl.
    repeat split; [lia..|]. clear. by open_run σ.
  - intros x σ1 Hfirst.
    destruct (cached σ) as [data|] eqn:Hc.
    + rewrite (load_hit σ data Hc) in Hfirst. injection Hfirst as <- <-.
      eexists. split; [by apply load_hit|].
      simpl. rewrite !delegate_loads_app. simpl. lia.
    + destruct (ds_load (delegate σ)) as [[v|e] d'] eqn:Hload.
      * destruct (write_error σ v) as [e|] eqn:Hcopy.
        { by rewrite (load_miss_refused σ v d' e Hc Hload Hcopy) in Hfirst. }
        rewrite (load_miss σ v d' Hc Hload Hcopy) in Hfirst. injection Hfirst as <- <-.
        eexists. split; [by apply load_hit|].
        simpl. rewrite !delegate_loads_app. simpl. lia.
      * by rewrite (load_miss_raise σ e d' Hc Hload) in Hfirst.
Qed.

(** C2. A failure of the delegate during [load] or [save] reaches the
    caller as the very exception the delegate raised, and the cache body
    is as it was before the call: nothing is filled on a failed read,
    nothing is mirrored on a failed write, the cache body not even being
    asked to save. *)
Theorem delegate_failure_keeps_cache σ :
  (∀ e d', cached σ = None → ds_load (delegate σ) = (Raise e, d') →
     _load σ = (Raise e,
                Run (with_dataset d' (subject σ))
                    (trace σ ++ [Call Cache Exists; Call Dataset Load])))
  ∧ (∀ data e d', ds_save data (delegate σ) = (Raise e, d') →
     _save data σ = (Raise e,
                     Run (with_dataset d' (subject σ))
                         (trace σ ++ [Call Dataset (Save data)]))).
Proof.
  split; [exact (load_miss_raise σ)|].
  intros data e d'. exact (save_raise σ data e d').
Qed.

(** C3. [save v] writes [v] to the delegate first and asks the cache body
    to store it only once the delegate has accepted it; the outcome is
    then that of the cache write.  After a [save v] that succeeded, [load]
    returns [v] from the cache body without any call on the delegate,
    whatever has become of the delegate in the meantime. *)
Theorem save_then_load_from_cache σ v :
  (∀ σ1, _save v σ = (Ok tt, σ1) →
     ds_save v (delegate σ) = (Ok tt, delegate σ1)
     ∧ trace σ1 = trace σ ++ [Call Dataset (Save v); Call Cache (Save v)]
     ∧ cached σ1 = Some v
     ∧ ∀ d'' t,
         _load (Run (with_dataset d'' (subject σ1)) t) =
           (Ok v, Run (with_dataset d'' (subject σ1))
                      (t ++ [Call Cache Exists; Call Cache Load; Call Cache Exists])))
  ∧ (∀ d', ds_save v (delegate σ) = (Ok tt, d') →
     trace (snd (_save v σ)) = trace σ ++ [Call Dataset (Save v); Call Cache (Save v)]
     ∧ delegate (snd (_save v σ)) = d'
     ∧ fst (_save v σ) = match write_error σ v with
                         | None => Ok tt
                         | Some e => Raise e
                         end)
  ∧ (∀ e d', ds_save v (delegate σ) = (Raise e, d') →
     ∃ σ1, _save v σ = (Raise e, σ1)
       ∧ trace σ1 = trace σ ++ [Call Dataset (Save v)]
       ∧ cached σ1 = cached σ).
Proof.
  split; [|split].
  - intros σ1 Hrun.
    destruct (ds_save v (delegate σ)) as [[[]|e] d'] eqn:Hsave.
    + destruct (write_error σ v) as [e|] eqn:Hcopy.
      { by rewrite (save_refused σ v d' e Hsave Hcopy) in Hrun. }
      rewrite (save_ok σ v d' Hsave Hcopy) in Hrun. injection Hrun as <-.
      repeat split. intros d'' t. by apply load_hit.
    + by rewrite (save_raise σ v e d' Hsave) in Hrun.
  - intros d' Hsave. destruct (write_error σ v) as [e|] eqn:Hcopy.
    + by rewrite (save_refused σ v d' e Hsave Hcopy).
    + by rewrite (save_ok σ v d' Hsave Hcopy).
  - intros e d' Hsave. eexists. split; [exact (save_raise σ v e d' Hsave)|].
    done.
Qed.

(** C4. [exists] is true exactly when the cache body holds data or the
    delegate reports existence.  It asks the cache body first and does
    not query the delegate when the cache body holds data.  It changes
    nothing in the wrapper: the cache body is untouched and the delegate
    receives at most its own [exists] query. *)
Theorem exists_is_cache_or_delegate σ :
  (∀ data, cached σ = Some data →
     _exists σ = (Ok true, Run (subject σ) (trace σ ++ [Call Cache Exists])))
  ∧ (∀ b d', cached σ = None → ds_exists (delegate σ) = (Ok b, d') →
     _exists σ = (Ok b,
                  Run (with_dataset d' (subject σ))
                      (trace σ ++ [Call Cache Exists; Call Dataset Exists])))
  ∧ (∀ b d', ds_exists (delegate σ) = (Ok b, d') →
     ∃ σ', _exists σ = (Ok (bool_decide (is_Some (cached σ)) || b), σ')
       ∧ (d' = delegate σ → subject σ' = subject σ))
  ∧ _cache (subject (snd (_exists σ))) = _cache (subject σ)
  ∧ ∃ new, trace (snd (_exists σ)) = trace σ ++ new
       ∧ existsb is_mutation new = false
       ∧ (is_Some (cached σ) → existsb is_delegate_call new = false).
Proof.
  split; [exact (exists_hit σ)|].
  split.
  { intros b d' Hc Hex. rewrite (exists_miss σ Hc), Hex. done. }
  split.
  { intros b d' Hex. destruct (cached σ) as [data|] eqn:Hc.
    - eexists. split; [by apply (exists_hit σ data)|]. done.
    - eexists. rewrite (exists_miss σ Hc), Hex. split; [done|].
      simpl. intros ->. clear. by open_run σ. }
  destruct (cached σ) as [data|] eqn:Hc.
  - rewrite (exists_hit σ data Hc). split; [done|].
    eexists. split; [done|]. done.
  - rewrite (exists_miss σ Hc). split; [done|].
    eexists. split; [done|]. split; [done|].
    intros [? [=]].
Qed.
End read_write.

Section teardown.
Context {Any D : Type} `{!AbstractDataset Any D} `{!CopyPolicy Any}.
Implicit Types (σ : run Any (CachedDataset.t Any D)) (v data : Any) (d : D).

(** C7. [release] clears the cache body whatever it held and whatever the
    delegate answers: it asks the cache body, then the delegate, to
    release, and calls nothing else.  The delegate is changed by its own
    [release] only, so whatever that preserves is preserved.  A [load]
    after [release] goes to the delegate again: it calls the delegate's
    [load], returns the value read when the cache body takes it, and
    raises what the delegate raised when the read fails. *)
Theorem release_clears_cache σ :
  ∃ σ1, _release σ = (fst (ds_release (delegate σ)), σ1)
    ∧ trace σ1 = trace σ ++ [Call Cache Release; Call Dataset Release]
    ∧ cached σ1 = None
    ∧ delegate σ1 = snd (ds_release (delegate σ))
    ∧ (∀ (X : Type) (persisted : D → X),
         (∀ d, persisted (snd (ds_release d)) = persisted d) →
         persisted (delegate σ1) = persisted (delegate σ))
    ∧ (∃ rest, trace (snd (_load σ1))
               = trace σ1 ++ [Call Cache Exists; Call Dataset Load] ++ rest
         ∧ delegate (snd (_load σ1)) = snd (ds_load (delegate σ1)))
    ∧ (∀ v d', ds_load (delegate σ1) = (Ok v, d') → write_error σ1 v = None →
         _load σ1 = (Ok v,
                     Run (with_cache (stored v (_cache (subject σ1)))
                                     (with_dataset d' (subject σ1)))
                         (trace σ1 ++ [Call Cache Exists; Call Dataset Load;
                                       Call Cache Exists; Call Cache (Save v)])))
    ∧ (∀ e d', ds_load (delegate σ1) = (Raise e, d') →
         _load σ1 = (Raise e,
                     Run (with_dataset d' (subject σ1))
                         (trace σ1 ++ [Call Cache Exists; Call Dataset Load]))).
Proof.
  eexists. split; [apply release_steps|].
  split; [done|]. split; [done|]. split; [done|].
  split; [intros X persisted Hkept; apply Hkept|].
  split; [by apply load_miss_reads|].
  split.
  - intros v d' Hload Hcopy. by apply load_miss.
  - intros e d' Hload. by apply load_miss_raise.
Qed.

(** C6, as the code has it.  The hook run before the state is captured
    logs a warning, then asks the cache body, and only the cache body, to
    release; the delegate receives no call.  Afterwards the cache body
    reports that it holds nothing, the delegate is exactly as it was, and
    the captured state is the wrapper with its cache body cleared. *)
Theorem getstate_clears_cache_only (__str__ : CachedDataset.t Any D → string) σ :
  ∃ σ1, __getstate__ __str__ σ = (Ok (subject σ1), σ1)
    ∧ subject σ1 = with_cache (cleared (_cache (subject σ))) (subject σ)
    ∧ trace σ1 = trace σ ++ [Warning (__str__ (subject σ) +:+ ": clearing cache to pickle.");
                             Call Cache Release]
    ∧ ds_exists (_cache (subject σ1)) = (Ok false, _cache (subject σ1))
    ∧ delegate σ1 = delegate σ.
Proof.
  eexists (Run _ _). split; [apply getstate_steps|].
  simpl. by repeat split.
Qed.
End teardown.

Section construction.
Context {Any D : Type}.
Variable from_config : string → dict → option string → option string → result D.
Implicit Types (σ : run Any heap) (config : loc) (cfg : dict).

Lemma from_config_rejects σ config cfg version :
  subject σ !! config = Some cfg →
  is_Some (cfg !! VERSIONED_FLAG_KEY) →
  _from_config from_config config version σ = (Raise duplicate_versioning, σ).
Proof.
  intros Hcfg Hkey. unfold _from_config, bind, contains, deref.
  rewrite Hcfg. simpl. by rewrite bool_decide_true.
Qed.

(** C5. A configuration that already carries the versioning marker makes
    construction fail with the configuration error, with or without a
    version pair.  Nothing is constructed, the factory is not consulted
    and the configuration is left as it was. *)
Theorem versioned_config_is_rejected σ config cfg version copy_mode metadata :
  subject σ !! config = Some cfg →
  is_Some (cfg !! VERSIONED_FLAG_KEY) →
  __init__ from_config (ADict config) version copy_mode metadata σ
    = (Raise duplicate_versioning, σ).
Proof.
  intros Hcfg Hkey. unfold __init__, bind.
  by rewrite (from_config_rejects σ config cfg version Hcfg Hkey).
Qed.

(** C8. A [dataset] argument that is neither a configuration mapping nor
    a dataset object makes construction fail with the argument error; no
    wrapper is returned and nothing else happens.  A dataset object, by
    contrast, is taken as the delegate as it is. *)
Theorem other_argument_is_rejected σ value version copy_mode metadata :
  __init__ from_config (AnyOther value) version copy_mode metadata σ
    = (Raise invalid_argument, σ)
  ∧ ∀ d : D,
      __init__ from_config (ADataset d) version copy_mode metadata σ
        = (Ok {| _EPHEMERAL := true; _dataset := d;
                 _cache := MemoryDataset.__init__ copy_mode;
                 CachedDataset.metadata := metadata |}, σ).
Proof.
  split.
  - unfold __init__, bind, raise. reflexivity.
  - intros d. unfold __init__, bind, ret. reflexivity.
Qed.

(** C10. The duplicate-versioning error depends on the presence of the
    reserved key alone: whatever value the key is bound to, construction
    fails in the same way, so a configuration with the key set to false
    is rejected exactly like one with the key set to true. *)
Theorem versioned_key_presence_alone (h : heap) t config cfg value version copy_mode metadata :
  let given (x : pyvalue) : run Any heap :=
    Run (<[config := <[VERSIONED_FLAG_KEY := x]> cfg]> h) t in
  __init__ from_config (ADict config) version copy_mode metadata (given value)
    = (Raise duplicate_versioning, given value)
  ∧ fst (__init__ from_config (ADict config) version copy_mode metadata (given (PyBool false)))
    = fst (__init__ from_config (ADict config) version copy_mode metadata (given (PyBool true))).
Proof.
  intros given.
  assert (∀ x, __init__ from_config (ADict config) version copy_mode metadata (given x)
               = (Raise duplicate_versioning, given x)) as Hany.
  { intros x. unfold __init__, bind.
    rewrite (from_config_rejects (given x) config (<[VERSIONED_FLAG_KEY := x]> cfg) version);
      [done| |].
    - apply lookup_insert_eq.
    - rewrite lookup_insert_eq. by eexists. }
  split; [apply Hany|]. by rewrite !Hany.
Qed.

(** C9, as the code has it.  A successful construction makes no call on
    the delegate or on the cache body: at most it asks the factory once
    to resolve the configuration.  The new wrapper holds the delegate it
    was given, or the one the factory returned, and a fresh, empty cache
    body.  Outside the wrapper one thing can change: when a configuration
    mapping comes with a version pair, the versioning marker is written,
    set to true, into the caller's mapping before the factory sees it.
    With a dataset object, or without a version pair, nothing outside the
    wrapper changes. *)
Theorem construction_effects dataset version copy_mode metadata σ self σ' :
  __init__ from_config dataset version copy_mode metadata σ = (Ok self, σ') →
  (_EPHEMERAL self = true
   ∧ _cache self = MemoryDataset.__init__ copy_mode
   ∧ CachedDataset.metadata self = metadata)
  ∧ (∃ new, trace σ' = trace σ ++ new ∧ existsb is_call new = false)
  ∧ match dataset with
    | ADataset d => _dataset self = d ∧ σ' = σ
    | ADict config =>
        let marked :=
          match version with
          | Some _ =>
              <[config := <[VERSIONED_FLAG_KEY := PyBool true]> (deref (subject σ) config)]>
                (subject σ)
          | None => subject σ
          end in
        deref (subject σ) config !! VERSIONED_FLAG_KEY = None
        ∧ subject σ' = marked
        ∧ trace σ' = trace σ ++ [Resolve "_cached" (deref marked config)
                                   (version ≫= Version.load) (version ≫= Version.save)]
        ∧ from_config "_cached" (deref marked config)
            (version ≫= Version.load) (version ≫= Version.save) = Ok (_dataset self)
    | AnyOther _ => False
    end.
Proof.
  destruct σ as [h t]. destruct dataset as [config|d|value]; [| |done].
  - unfold __init__, _from_config, bind, contains, setitem, resolve, ret. simpl.
    case_bool_decide as Hkey; [done|].
    assert (deref h config !! VERSIONED_FLAG_KEY = None) as Hnone.
    { destruct (deref h config !! VERSIONED_FLAG_KEY) eqn:E; [|done].
      exfalso. apply Hkey. by eexists. }
    destruct version as [ver|]; simpl.
    + destruct (from_config _ _ _ _) as [d|e] eqn:Hres; [|done].
      intros [= <- <-]. simpl. split; [done|].
      split; [by eexists|]. done.
    + destruct (from_config _ _ _ _) as [d|e] eqn:Hres; [|done].
      intros [= <- <-]. simpl. split; [done|].
      split; [by eexists|]. done.
  - intros [= <- <-]. simpl. split; [done|].
    split; [exists []; by rewrite app_nil_r|]. done.
Qed.
End construction.

(** * The wrapper at work on the concrete delegate *)

Section runs.
Import Demo.
Local Open Scope positive_scope.

(** Two loads over a disk holding 7, starting with an empty cache body. *)
Lemma load_twice_from_disk :
  let σ := Run (wrapper (disk 7) None) [] in
  cached σ = None
  ∧ ds_load (delegate σ) = (Ok 7%nat, {| content := Some 7%nat; offline := false; handles := 2 |})
  ∧ write_error σ 7%nat = None
  ∧ ∃ σ1 σ2, _load σ = (Ok 7%nat, σ1) ∧ _load σ1 = (Ok 7%nat, σ2)
      ∧ delegate_loads (trace σ1) = (delegate_loads (trace σ) + 1)%nat
      ∧ delegate_loads (trace σ2) = delegate_loads (trace σ1)
      ∧ delegate σ2 = {| content := Some 7%nat; offline := false; handles := 2 |}.
Proof.
  intros σ. split; [reflexivity|]. split; [reflexivity|]. split; [reflexivity|].
  destruct (load_consults_cache_first σ) as (_ & _ & _ & Htwice & _).
  apply Htwice; reflexivity.
Defined.

(** A read with an empty cache body and a write with the cache body
    holding 1, both against an unreachable device. *)
Lemma unplugged_device_keeps_cache :
  let σ := Run (wrapper (unplugged 7) None) [] in
  let τ := Run (wrapper (unplugged 7) (Some 1%nat)) [] in
  (cached σ = None
   ∧ ds_load (delegate σ) = (Raise io_error, unplugged 7)
   ∧ _load σ = (Raise io_error,
                Run (wrapper (unplugged 7) None) [Call Cache Exists; Call Dataset Load]))
  ∧ (ds_save 3%nat (delegate τ) = (Raise io_error, unplugged 7)
     ∧ _save 3%nat τ = (Raise io_error,
                        Run (wrapper (unplugged 7) (Some 1%nat)) [Call Dataset (Save 3%nat)])).
Proof.
  intros σ τ. split.
  - split; [reflexivity|]. split; [reflexivity|].
    destruct (delegate_failure_keeps_cache σ) as (Hload & _).
    apply (Hload io_error (unplugged 7)); reflexivity.
  - split; [reflexivity|].
    destruct (delegate_failure_keeps_cache τ) as (_ & Hsave).
    apply (Hsave 3%nat io_error (unplugged 7)). reflexivity.
Defined.

(** Saving 3 over a disk holding 7, then loading while the device is
    unreachable. *)
Lemma save_then_load_unplugged :
  let σ := Run (wrapper (disk 7) None) [] in
  let σ1 := snd (_save 3%nat σ) in
  _save 3%nat σ = (Ok tt, σ1)
  ∧ trace σ1 = [Call Dataset (Save 3%nat); Call Cache (Save 3%nat)]
  ∧ cached σ1 = Some 3%nat
  ∧ fst (_load (Run (with_dataset (unplugged 3) (subject σ1)) [])) = Ok 3%nat.
Proof.
  intros σ σ1.
  assert (_save 3%nat σ = (Ok tt, σ1)) as Hsave by reflexivity.
  destruct (save_then_load_from_cache σ 3%nat) as (Hok & _).
  destruct (Hok σ1 Hsave) as (_ & Htrace & Hcached & Hload).
  split; [exact Hsave|]. split; [exact Htrace|]. split; [exact Hcached|].
  by rewrite (Hload (unplugged 3) []).
Defined.

(** Existence in the four situations: delegate only, neither, cache body
    only, both. *)
Lemma exists_in_every_situation :
  let absent := {| content := None; offline := false; handles := 0 |} in
  (cached (Run (wrapper (disk 7) None) []) = None
   ∧ ds_exists (disk 7) = (Ok true, disk 7)
   ∧ _exists (Run (wrapper (disk 7) None) [])
     = (Ok true, Run (wrapper (disk 7) None) [Call Cache Exists; Call Dataset Exists]))
  ∧ (ds_exists absent = (Ok false, absent)
     ∧ _exists (Run (wrapper absent None) [])
       = (Ok false, Run (wrapper absent None) [Call Cache Exists; Call Dataset Exists]))
  ∧ _exists (Run (wrapper absent (Some 5%nat)) [])
    = (Ok true, Run (wrapper absent (Some 5%nat)) [Call Cache Exists])
  ∧ _exists (Run (wrapper (disk 7) (Some 5%nat)) [])
    = (Ok true, Run (wrapper (disk 7) (Some 5%nat)) [Call Cache Exists]).
Proof.
  intros absent. split; [|split; [|split]].
  - split; [reflexivity|]. split; [reflexivity|].
    destruct (exists_is_cache_or_delegate (Run (wrapper (disk 7) None) []))
      as (_ & Hmiss & _).
    apply (Hmiss true (disk 7)); reflexivity.
  - split; [reflexivity|].
    destruct (exists_is_cache_or_delegate (Run (wrapper absent None) []))
      as (_ & Hmiss & _).
    apply (Hmiss false absent); reflexivity.
  - destruct (exists_is_cache_or_delegate (Run (wrapper absent (Some 5%nat)) []))
      as (Hhit & _).
    apply (Hhit 5%nat). reflexivity.
  - destruct (exists_is_cache_or_delegate (Run (wrapper (disk 7) (Some 5%nat)) []))
      as (Hhit & _).
    apply (Hhit 5%nat). reflexivity.
Defined.

(** A catalog entry that declares itself unversioned is refused, here
    without a version pair. *)
Lemma flagged_entry_is_refused :
  let σ := Run (Any := nat) flagged_memory [] in
  subject σ !! 2 = Some flagged
  ∧ is_Some (flagged !! VERSIONED_FLAG_KEY)
  ∧ __init__ factory (ADict 2) None None None σ = (Raise duplicate_versioning, σ).
Proof.
  intros σ.
  assert (subject σ !! 2 = Some flagged) as Hcfg by reflexivity.
  assert (is_Some (flagged !! VERSIONED_FLAG_KEY)) as Hkey by (by exists (PyBool false)).
  split; [exact Hcfg|]. split; [exact Hkey|].
  exact (versioned_config_is_rejected factory σ 2 flagged None None None Hcfg Hkey).
Defined.

(** The scenario of a stale cache body: the disk holds 7, the cache body
    still holds 5; after [release] a load returns 7. *)
Lemma release_then_load_rereads :
  let σ := Run (wrapper (disk 7) (Some 5%nat)) [] in
  fst (_load σ) = Ok 5%nat
  ∧ ∃ σ1, _release σ = (Ok tt, σ1)
      ∧ cached σ1 = None
      ∧ content (delegate σ1) = content (delegate σ)
      ∧ fst (_load σ1) = Ok 7%nat.
Proof.
  intros σ. split; [reflexivity|].
  destruct (release_clears_cache σ)
    as (σ1 & Hrel & _ & Hcleared & Hdel & Hkept & _ & Hload & _).
  exists σ1. split; [exact Hrel|]. split; [exact Hcleared|].
  split; [apply (Hkept _ content); reflexivity|].
  assert (σ1 = snd (_release σ)) as Hσ1 by (by rewrite Hrel).
  rewrite (Hload 7%nat {| content := Some 7%nat; offline := false; handles := 1 |});
    [done| |].
  - by rewrite Hdel.
  - by rewrite Hσ1.
Defined.

(** Construction from the catalog entry with a version pair. *)
Lemma versioned_construction_marks_entry :
  let σ := Run (Any := nat) memory [] in
  let marked : heap := <[1 := <[VERSIONED_FLAG_KEY := PyBool true]> entry]> memory in
  let self := wrapper {| content := None; offline := false; handles := 0 |} None in
  __init__ factory (ADict 1) (Some latest) None None σ
    = (Ok self, Run marked [Resolve "_cached" (deref marked 1) None None])
  ∧ subject (snd (__init__ factory (ADict 1) (Some latest) None None σ)) = marked.
Proof.
  intros σ marked self.
  assert (__init__ factory (ADict 1) (Some latest) None None σ
          = (Ok self, Run marked [Resolve "_cached" (deref marked 1) None None])) as Hrun
    by reflexivity.
  split; [exact Hrun|].
  destruct (construction_effects factory _ _ _ _ _ _ _ Hrun) as (_ & _ & _ & Hheap & _).
  rewrite Hrun. exact Hheap.
Defined.

(** C1, against the claim as worded: a miss does not always return the
    value read.  Over a disk holding 7, a wrapper constructed with the copy
    mode "copy" reads 7 from the delegate, fails to store it, and raises;
    the cache body stays empty, so the second load reads the delegate
    again and raises again: no load yields 7 and the delegate's [load]
    runs twice. *)
Lemma load_raises_when_cache_write_fails :
  let refused := DatasetError "'int' object has no attribute 'copy'" in
  let self := fresh (disk 7) (Some "copy") None in
  let σ := Run self [] in
  let σ1 := snd (_load σ) in
  let σ2 := snd (_load σ1) in
  fst (__init__ (Any := nat) factory (ADataset (disk 7)) None (Some "copy") None
         (Run memory [])) = Ok self
  ∧ fst (ds_load (delegate σ)) = Ok 7%nat
  ∧ fst (_load σ) = Raise refused
  ∧ cached σ1 = None
  ∧ fst (_load σ1) = Raise refused
  ∧ delegate_loads (trace σ2) = 2%nat.
Proof. repeat split; reflexivity. Qed.

(** C6, against the claim as worded: the hook does not run the release
    of the wrapper.  On a disk with an open handle, [_release] asks the
    delegate to release and the handle is dropped; [__getstate__] makes
    no call on the delegate and the handle stays. *)
Lemma getstate_does_not_release_delegate :
  let σ := Run (wrapper (disk 7) (Some 7%nat)) [] in
  existsb is_delegate_release (trace (snd (_release σ))) = true
  ∧ existsb is_delegate_release (trace (snd (__getstate__ render σ))) = false
  ∧ handles (delegate (snd (_release σ))) = 0%nat
  ∧ handles (delegate (snd (__getstate__ render σ))) = 1%nat
  ∧ snd (__getstate__ render σ) ≠ Run (subject (snd (_release σ)))
                                      (trace (snd (__getstate__ render σ))).
Proof. repeat split; try reflexivity. intros [=]. Qed.

(** C9, against the claim as worded: construction from a configuration
    mapping with a version pair succeeds and leaves the caller's mapping
    changed, the versioning marker now being present; a second
    construction from the same mapping therefore fails. *)
Lemma versioned_construction_changes_caller_config :
  let σ := Run (Any := nat) memory [] in
  let out := __init__ factory (ADict 1) (Some latest) None None σ in
  (∃ self, fst out = Ok self)
  ∧ deref (subject σ) 1 !! VERSIONED_FLAG_KEY = None
  ∧ deref (subject (snd out)) 1 !! VERSIONED_FLAG_KEY = Some (PyBool true)
  ∧ subject (snd out) ≠ subject σ
  ∧ fst (__init__ factory (ADict 1) (Some latest) None None (snd out))
    = Raise duplicate_versioning.
Proof.
  intros σ out. split; [by eexists|].
  split; [reflexivity|]. split; [reflexivity|].
  split; [|reflexivity].
  intros Heq. apply (f_equal (λ h : heap, deref h 1 !! VERSIONED_FLAG_KEY)) in Heq.
  vm_compute in Heq. discriminate.
Qed.
End runs.

(** * Further properties of the methods *)

Section outcomes.
Context {Any D : Type} `{!AbstractDataset Any D} `{!CopyPolicy Any}.
Implicit Types (σ : run Any (CachedDataset.t Any D)) (v data : Any) (d : D).

(** What [_load] answers, on every path. *)
Lemma load_result σ :
  fst (_load σ) = match cached σ with
                  | Some data => Ok data
                  | None =>
                      match fst (ds_load (delegate σ)) with
                      | Ok v => match write_error σ v with
                                | None => Ok v
                                | Some e => Raise e
                                end
                      | Raise e => Raise e
                      end
                  end.
Proof.
  destruct (cached σ) as [data|] eqn:Hc.
  - by rewrite (load_hit σ data Hc).
  - destruct (ds_load (delegate σ)) as [[v|e] d'] eqn:Hload; simpl.
    + destruct (write_error σ v) as [e|] eqn:Hcopy.
      * by rewrite (load_miss_refused σ v d' e Hc Hload Hcopy).
      * by rewrite (load_miss σ v d' Hc Hload Hcopy).
    + by rewrite (load_miss_raise σ e d' Hc Hload).
Qed.

(** A value returned by [_load] is in the cache body afterwards. *)
Lemma load_ok_cached σ x σ1 : _load σ = (Ok x, σ1) → cached σ1 = Some x.
Proof.
  intros Hrun. destruct (cached σ) as [data|] eqn:Hc.
  - rewrite (load_hit σ data Hc) in Hrun. by injection Hrun as <- <-.
  - destruct (ds_load (delegate σ)) as [[v|e] d'] eqn:Hload.
    + destruct (write_error σ v) as [e|] eqn:Hcopy.
      * by rewrite (load_miss_refused σ v d' e Hc Hload Hcopy) in Hrun.
      * rewrite (load_miss σ v d' Hc Hload Hcopy) in Hrun. by injection Hrun as <- <-.
    + by rewrite (load_miss_raise σ e d' Hc Hload) in Hrun.
Qed.

(** After [_save], the cache body holds the value if the call succeeded,
    and what it held before if the call raised. *)
Lemma save_cached σ v r σ1 :
  _save v σ = (r, σ1) →
  cached σ1 = match r with Ok _ => Some v | Raise _ => cached σ end.
Proof.
  intros Hrun. destruct (ds_save v (delegate σ)) as [[[]|e] d'] eqn:Hsave.
  - destruct (write_error σ v) as [e|] eqn:Hcopy.
    + rewrite (save_refused σ v d' e Hsave Hcopy) in Hrun. by injection Hrun as <- <-.
    + rewrite (save_ok σ v d' Hsave Hcopy) in Hrun. by injection Hrun as <- <-.
  - rewrite (save_raise σ v e d' Hsave) in Hrun. by injection Hrun as <- <-.
Qed.

(** The cache body is the same whatever the delegate is replaced by. *)
Lemma cached_with_dataset σ d t :
  cached (Run (with_dataset d (subject σ)) t) = cached σ.
Proof. reflexivity. Qed.

(** X1. Cache precedence.  Once a load has returned the value [v], later
    loads return [v] without reading the delegate, whatever has become of
    the delegate meanwhile; only after [release] does a load call the
    delegate's [load] again, and it then returns what the delegate holds
    if the cache body takes it. *)
Theorem cached_value_served_until_release σ v σ1 :
  _load σ = (Ok v, σ1) →
  ∀ d2,
    let σ2 := Run (with_dataset d2 (subject σ1)) (trace σ1) in
    ∃ σ3, _load σ2 = (Ok v, σ3)
      ∧ delegate σ3 = d2
      ∧ delegate_loads (trace σ3) = delegate_loads (trace σ1)
      ∧ let σ4 := snd (_release σ3) in
        (∃ rest, trace (snd (_load σ4))
                 = trace σ4 ++ [Call Cache Exists; Call Dataset Load] ++ rest)
        ∧ ∀ v' d4, ds_load (snd (ds_release d2)) = (Ok v', d4) →
            write_error σ4 v' = None →
            fst (_load σ4) = Ok v'.
Proof.
  intros Hfirst d2 σ2.
  assert (cached σ2 = Some v) as Hc by exact (load_ok_cached σ v σ1 Hfirst).
  eexists. split; [exact (load_hit σ2 v Hc)|].
  split; [done|]. split.
  { simpl. rewrite !delegate_loads_app. simpl. lia. }
  intros σ4.
  assert (cached σ4 = None) as Hempty by (unfold σ4; by rewrite release_steps).
  assert (delegate σ4 = snd (ds_release d2)) as Hdel
    by (unfold σ4; by rewrite release_steps).
  split.
  - destruct (load_miss_reads σ4 Hempty) as (rest & Htrace & _). by exists rest.
  - intros v' d4 Hagain Hcopy.
    rewrite load_result, Hempty, Hdel, Hagain. simpl. by rewrite Hcopy.
Qed.

(** X2. The state captured by [__getstate__] is that of a wrapper just
    built over the same delegate with the same copy mode and metadata:
    constructing from the delegate gives it back.  A load on it calls the
    delegate's [load] once; it returns the value read if the cache body
    takes it, raises the cache body's exception if not, and raises the
    delegate's exception if the read failed. *)
Theorem captured_state_is_fresh (__str__ : CachedDataset.t Any D → string)
    (from_config : string → dict → option string → option string → result D)
    σ (captured : CachedDataset.t Any D) σ1 :
  _EPHEMERAL (subject σ) = true →
  __getstate__ __str__ σ = (Ok captured, σ1) →
  captured = fresh (delegate σ) (MemoryDataset._copy_mode (_cache (subject σ)))
                   (metadata (subject σ))
  ∧ (∀ version (h : run Any heap),
       __init__ from_config (ADataset (delegate σ)) version
         (MemoryDataset._copy_mode (_cache (subject σ))) (metadata (subject σ)) h
       = (Ok captured, h))
  ∧ ∀ t,
      fst (_load (Run captured t))
      = match fst (ds_load (delegate σ)) with
        | Ok v => match write_error σ v with None => Ok v | Some e => Raise e end
        | Raise e => Raise e
        end
      ∧ delegate_loads (trace (snd (_load (Run captured t)))) = delegate_loads t + 1.
Proof.
  intros Hephemeral Hrun. rewrite getstate_steps in Hrun.
  injection Hrun as <- <-.
  assert (with_cache (cleared (_cache (subject σ))) (subject σ)
          = fresh (delegate σ) (MemoryDataset._copy_mode (_cache (subject σ)))
                  (metadata (subject σ))) as ->.
  { clear -Hephemeral. open_run σ. by subst. }
  split; [done|]. split; [done|].
  intros t. split; [by rewrite load_result|].
  unfold fresh. steps. split_delegate;
    rewrite <- ?app_assoc, ?delegate_loads_app; simpl; lia.
Qed.

(** X3. Once [_load] has returned a value, or [_save] has succeeded,
    [_exists] answers true from the cache body alone, without asking the
    delegate, whatever has become of the delegate meanwhile. *)
Theorem exists_after_load_or_save σ :
  (∀ x σ1, _load σ = (Ok x, σ1) →
     ∀ d t, _exists (Run (with_dataset d (subject σ1)) t)
            = (Ok true, Run (with_dataset d (subject σ1)) (t ++ [Call Cache Exists])))
  ∧ (∀ v σ1, _save v σ = (Ok tt, σ1) →
     ∀ d t, _exists (Run (with_dataset d (subject σ1)) t)
            = (Ok true, Run (with_dataset d (subject σ1)) (t ++ [Call Cache Exists]))).
Proof.
  split.
  - intros x σ1 Hrun d t.
    apply (exists_hit (Run (with_dataset d (subject σ1)) t) x).
    rewrite cached_with_dataset. by apply (load_ok_cached σ).
  - intros v σ1 Hrun d t.
    apply (exists_hit (Run (with_dataset d (subject σ1)) t) v).
    rewrite cached_with_dataset. by rewrite (save_cached σ v (Ok tt) σ1 Hrun).
Qed.

(** X4. After a successful [save v1], the outcome of a second [save v2]
    decides what the next load returns: [v2] if that save succeeded, still
    [v1] if it raised, whether the delegate or the cache body refused
    [v2].  In both cases the load is served by the cache body. *)
Theorem load_after_two_saves σ v1 v2 σ1 d t r σ2 :
  _save v1 σ = (Ok tt, σ1) →
  _save v2 (Run (with_dataset d (subject σ1)) t) = (r, σ2) →
  let served := match r with Ok _ => v2 | Raise _ => v1 end in
  _load σ2 = (Ok served,
              Run (subject σ2)
                  (trace σ2 ++ [Call Cache Exists; Call Cache Load; Call Cache Exists])).
Proof.
  intros Hfirst Hsecond served. apply load_hit.
  rewrite (save_cached _ v2 r σ2 Hsecond), cached_with_dataset.
  rewrite (save_cached σ v1 (Ok tt) σ1 Hfirst). unfold served. by destruct r.
Qed.
End outcomes.

(** * Properties of sequences of calls *)

Section sequences.
Context {Any D : Type} `{!AbstractDataset Any D} `{!CopyPolicy Any}.
Variable __str__ : CachedDataset.t Any D → string.
Implicit Types (σ : run Any (CachedDataset.t Any D)) (r : request Any)
  (rs : list (request Any)).

Lemma serve_all_snoc rs r σ :
  serve_all __str__ (rs ++ [r]) σ = serve __str__ r (serve_all __str__ rs σ).
Proof. unfold serve_all. by rewrite foldl_app. Qed.

Lemma serve_attributes r σ :
  _EPHEMERAL (subject (serve __str__ r σ)) = _EPHEMERAL (subject σ)
  ∧ metadata (subject (serve __str__ r σ)) = metadata (subject σ).
Proof.
  open_run σ. destruct r; simpl; steps;
    try destruct data; simpl; split_delegate; done.
Qed.

Lemma serve_all_attributes rs σ :
  _EPHEMERAL (subject (serve_all __str__ rs σ)) = _EPHEMERAL (subject σ)
  ∧ metadata (subject (serve_all __str__ rs σ)) = metadata (subject σ).
Proof.
  induction rs as [|r rs IH] using rev_ind; [done|].
  rewrite serve_all_snoc.
  destruct (serve_attributes r (serve_all __str__ rs σ)) as [-> ->]. exact IH.
Qed.

Lemma init_builds_fresh
    (from_config : string → dict → option string → option string → result D)
    dataset version copy_mode md (h h' : run Any heap) self :
  __init__ from_config dataset version copy_mode md h = (Ok self, h') →
  ∃ d, self = fresh d copy_mode md.
Proof.
  unfold __init__, bind.
  destruct (match dataset with
            | ADict config => _from_config from_config config version
            | ADataset d => ret d
            | AnyOther _ => raise invalid_argument
            end h) as [[d|e] h1]; [|done].
  intros [= <- <-]. by exists d.
Qed.

(** X5. Whatever calls follow a successful construction, in any number
    and order and whether they succeed or fail, the wrapper stays marked
    ephemeral and its metadata stay those given to the constructor. *)
Theorem constructed_attributes_persist
    (from_config : string → dict → option string → option string → result D)
    dataset version copy_mode md (h h' : run Any heap) self rs t :
  __init__ from_config dataset version copy_mode md h = (Ok self, h') →
  _EPHEMERAL (subject (serve_all __str__ rs (Run self t))) = true
  ∧ metadata (subject (serve_all __str__ rs (Run self t))) = md.
Proof.
  intros Hinit.
  destruct (init_builds_fresh _ _ _ _ _ _ _ _ Hinit) as [d ->].
  by destruct (serve_all_attributes rs (Run (fresh d copy_mode md) t)) as [-> ->].
Qed.

Lemma serve_delegate_saves r σ :
  delegate_saves (trace (serve __str__ r σ)) = delegate_saves (trace σ) ++ saves [r].
Proof.
  open_run σ. unfold delegate_saves, saves.
  destruct r; simpl; steps; try destruct data; simpl; split_delegate;
    rewrite <- ?app_assoc, ?omap_app, ?app_nil_r; done.
Qed.

Lemma serve_delegate_loads r σ :
  delegate_loads (trace (serve __str__ r σ)) ≤ delegate_loads (trace σ) + loads [r].
Proof.
  open_run σ. unfold loads.
  destruct r; simpl; steps; try destruct data; simpl; split_delegate;
    rewrite <- ?app_assoc, ?delegate_loads_app; simpl; lia.
Qed.

Lemma loads_app rs1 rs2 : loads (rs1 ++ rs2) = loads rs1 + loads rs2.
Proof. unfold loads. by rewrite List.filter_app, length_app. Qed.

(** X6. Writes go through, reads do not write.  Over any sequence of
    calls, the delegate is asked to save exactly the values passed to
    [save], once each and in the same order, whether or not it accepts
    them; no other call makes the delegate save.  The delegate's [load]
    runs at most once per call of [load]. *)
Theorem delegate_saves_are_the_saves rs σ :
  delegate_saves (trace (serve_all __str__ rs σ)) = delegate_saves (trace σ) ++ saves rs
  ∧ delegate_loads (trace (serve_all __str__ rs σ)) ≤ delegate_loads (trace σ) + loads rs.
Proof.
  induction rs as [|r rs [IHs IHl]] using rev_ind.
  - simpl. rewrite app_nil_r. split; [done|]. unfold loads. simpl. lia.
  - rewrite serve_all_snoc. split.
    + rewrite serve_delegate_saves, IHs. unfold saves.
      by rewrite omap_app, app_assoc.
    + pose proof (serve_delegate_loads r (serve_all __str__ rs σ)) as Hstep.
      rewrite loads_app. lia.
Qed.

Lemma serve_populated r σ :
  is_Some (cached σ) → clears r = false →
  is_Some (cached (serve __str__ r σ))
  ∧ delegate_queries (trace (serve __str__ r σ)) = delegate_queries (trace σ).
Proof.
  intros [c Hc] Hkeeps. open_run σ. subst. unfold delegate_queries.
  destruct r; try discriminate; simpl; steps; split_delegate;
    rewrite <- ?app_assoc, ?List.filter_app, ?app_nil_r; simpl;
    rewrite ?app_nil_r; by (split; [eexists|]).
Qed.

(** X7. Once the cache body holds a value, it keeps holding one, and the
    delegate is neither loaded nor asked for existence, through any
    sequence of [load], [save] and [exists] calls: only [release] and the
    capture of the state send reads back to the delegate. *)
Theorem populated_cache_shields_delegate rs σ :
  is_Some (cached σ) →
  forallb (λ r, negb (clears r)) rs = true →
  is_Some (cached (serve_all __str__ rs σ))
  ∧ delegate_queries (trace (serve_all __str__ rs σ)) = delegate_queries (trace σ).
Proof.
  intros Hc. induction rs as [|r rs IH] using rev_ind; [done|].
  rewrite forallb_app. simpl. rewrite andb_true_r.
  intros [Hrs Hr%negb_true_iff]%andb_true_iff.
  destruct (IH Hrs) as [Hsome Hqueries].
  rewrite serve_all_snoc.
  destruct (serve_populated r (serve_all __str__ rs σ) Hsome Hr) as [? ->].
  done.
Qed.
End sequences.

Section coherence.
Context {Any D : Type} `{!AbstractDataset Any D} `{!CopyPolicy Any}.
Variable __str__ : CachedDataset.t Any D → string.
Variable content : D → option Any.
Context `{Hstore : !PersistentStore content}.
Implicit Types (σ : run Any (CachedDataset.t Any D)) (r : request Any)
  (rs : list (request Any)).

Lemma serve_copy_mode r σ :
  MemoryDataset._copy_mode (_cache (subject (serve __str__ r σ)))
  = MemoryDataset._copy_mode (_cache (subject σ)).
Proof.
  open_run σ. destruct r; simpl; steps;
    try destruct data; simpl; split_delegate; done.
Qed.

Lemma serve_write_error r σ v :
  write_error (serve __str__ r σ) v = write_error σ v.
Proof. unfold write_error. by rewrite serve_copy_mode. Qed.

Lemma serve_coherent r σ :
  (∀ v, write_error σ v = None) →
  coherent content σ → coherent content (serve __str__ r σ).
Proof using Type*.
  unfold coherent. intros Htakes Hcoh x.
  destruct r as [|v| | |]; cbn [serve].
  - destruct (cached σ) as [c|] eqn:Hc.
    + rewrite (load_hit σ c Hc). intros Hx.
      change (cached σ = Some x) in Hx. rewrite Hc in Hx. exact (Hcoh x Hx).
    + destruct (ds_load (delegate σ)) as [[v|e] d'] eqn:Hload.
      * rewrite (load_miss σ v d' Hc Hload (Htakes v)).
        destruct (load_reads (content:=content) _ _ _ Hload) as [Hkeep Hread].
        unfold cached, delegate. simpl. intros [= <-].
        rewrite Hkeep. by apply Hread.
      * rewrite (load_miss_raise σ e d' Hc Hload). cbn [snd].
        by rewrite cached_with_dataset, Hc.
  - destruct (ds_save v (delegate σ)) as [[[]|e] d'] eqn:Hsave.
    + rewrite (save_ok σ v d' Hsave (Htakes v)). unfold cached, delegate. simpl.
      intros [= <-]. by rewrite (save_writes (content:=content) _ _ _ _ Hsave).
    + rewrite (save_raise σ v e d' Hsave). unfold cached, delegate. simpl.
      rewrite (save_writes (content:=content) _ _ _ _ Hsave). apply Hcoh.
  - destruct (cached σ) as [c|] eqn:Hc.
    + rewrite (exists_hit σ c Hc). intros Hx.
      change (cached σ = Some x) in Hx. rewrite Hc in Hx. exact (Hcoh x Hx).
    + rewrite (exists_miss σ Hc). cbn [snd].
      by rewrite cached_with_dataset, Hc.
  - by rewrite release_steps.
  - by rewrite getstate_steps.
Qed.

(** X8. Over a delegate that persists one value, as long as nothing but
    the wrapper touches it and the cache body takes every value under the
    wrapper's copy mode, the cache body never holds anything but the value
    the delegate persists: the property is kept by every call, succeeding
    or failing, and so a load never returns a value other than the one the
    delegate persists at that moment. *)
Theorem cache_never_diverges rs σ :
  (∀ v, write_error σ v = None) →
  coherent content σ →
  coherent content (serve_all __str__ rs σ)
  ∧ ∀ x σ', _load (serve_all __str__ rs σ) = (Ok x, σ') →
      content (delegate (serve_all __str__ rs σ)) = Some x.
Proof using Type*.
  intros Htakes Hinit.
  assert (coherent content (serve_all __str__ rs σ)
          ∧ ∀ v, write_error (serve_all __str__ rs σ) v = None) as [Hcoh _].
  { induction rs as [|r rs [IHc IHt]] using rev_ind; [done|].
    rewrite serve_all_snoc. split.
    - by apply serve_coherent.
    - intros v. by rewrite serve_write_error. }
  split; [exact Hcoh|].
  intros x σ' Hrun. pose proof (load_result (serve_all __str__ rs σ)) as Hres.
  rewrite Hrun in Hres. simpl in Hres.
  destruct (cached (serve_all __str__ rs σ)) as [c|] eqn:Hc.
  - injection Hres as ->. by apply Hcoh.
  - destruct (ds_load (delegate (serve_all __str__ rs σ))) as [[v|e] d'] eqn:Hload;
      simpl in Hres; [|done].
    destruct (write_error (serve_all __str__ rs σ) v); [done|].
    injection Hres as ->.
    by apply (load_reads (content:=content) _ _ _ Hload).
Qed.
End coherence.

(** * Further properties of construction *)

Section construction_outcomes.
Context {Any D : Type} `{!AbstractDataset Any D} `{!CopyPolicy Any}.
Variable from_config : string → dict → option string → option string → result D.
Implicit Types (h : heap) (config : loc) (cfg : dict).

Lemma deref_insert h config cfg : deref (<[config := cfg]> h) config = cfg.
Proof. unfold deref. by rewrite lookup_insert_eq. Qed.

(** X9. Construction from a configuration without the versioning marker
    ends as the factory ends: the wrapper is built over the dataset the
    factory returns, and an exception of the factory leaves construction
    unchanged, no wrapper being built.  The factory is asked once, with the
    marker set to true and the two version identifiers when a version pair
    is given, and with the configuration as it is otherwise.  With a
    version pair the caller's mapping is marked even when the factory
    raises; without one it is never written. *)
Theorem config_construction_outcome h (t : list (event Any)) config version copy_mode md :
  deref h config !! VERSIONED_FLAG_KEY = None →
  let given := match version with
               | Some _ => <[VERSIONED_FLAG_KEY := PyBool true]> (deref h config)
               | None => deref h config
               end in
  let load_version := version ≫= Version.load in
  let save_version := version ≫= Version.save in
  __init__ from_config (ADict config) version copy_mode md (Run h t)
  = (match from_config "_cached" given load_version save_version with
     | Ok d => Ok (fresh d copy_mode md)
     | Raise e => Raise e
     end,
     Run (match version with Some _ => <[config := given]> h | None => h end)
         (t ++ [Resolve "_cached" given load_version save_version])).
Proof.
  intros Hkey given load_version save_version.
  unfold __init__, _from_config, bind, contains. cbn [subject trace].
  rewrite Hkey, bool_decide_false by (by intros [? ?]).
  destruct version as [ver|]; unfold setitem, resolve, given; cbn [subject trace].
  - rewrite deref_insert.
    by destruct (from_config _ _ _ _).
  - by destruct (from_config _ _ _ _).
Qed.

(** X10. A configuration mapping serves at most one construction with a
    version pair: whatever the first such construction did, succeed, fail
    in the factory or be refused, any later construction from the same
    mapping is refused with the configuration error and changes nothing. *)
Theorem one_versioned_construction_per_mapping (σ : run Any heap) config
    first copy_mode md version' copy_mode' md' :
  let after := snd (__init__ from_config (ADict config) (Some first) copy_mode md σ) in
  __init__ from_config (ADict config) version' copy_mode' md' after
  = (Raise duplicate_versioning, after).
Proof.
  destruct σ as [h t]. intros after.
  assert (is_Some (deref (subject after) config !! VERSIONED_FLAG_KEY)) as Hmarked.
  { unfold after, __init__, _from_config, bind, contains, ret, raise. cbn [subject trace].
    case_bool_decide as Hkey; [exact Hkey|].
    unfold setitem, resolve. cbn [subject trace].
    destruct (from_config _ _ _ _); cbn [snd subject];
      rewrite deref_insert, lookup_insert_eq; by eexists. }
  unfold __init__, _from_config, bind, contains.
  by rewrite bool_decide_true.
Qed.

(** X11. A wrapper just constructed has nothing cached: its first load
    calls its delegate's [load] once; it returns the value read if the
    cache body takes it under the copy mode given to the constructor,
    raises the cache body's exception if not, and raises the delegate's
    exception if the read failed.  Its first existence check answers what
    the delegate's [exists] answers. *)
Theorem first_use_goes_to_delegate dataset version copy_mode md
    (h h' : run Any heap) self t :
  __init__ from_config dataset version copy_mode md h = (Ok self, h') →
  fst (_load (Run self t))
  = match fst (ds_load (_dataset self)) with
    | Ok v => match copy_error copy_mode v with None => Ok v | Some e => Raise e end
    | Raise e => Raise e
    end
  ∧ delegate_loads (trace (snd (_load (Run self t)))) = delegate_loads t + 1
  ∧ fst (_exists (Run self t)) = fst (ds_exists (_dataset self)).
Proof.
  intros Hinit. destruct (init_builds_fresh _ _ _ _ _ _ _ _ Hinit) as [d ->].
  split; [by rewrite load_result|]. split.
  - unfold fresh. steps. split_delegate;
      rewrite <- ?app_assoc, ?delegate_loads_app; simpl; lia.
  - by rewrite exists_miss.
Qed.
End construction_outcomes.

Section cache_write_failures.
Context {Any D : Type} `{!AbstractDataset Any D} `{!CopyPolicy Any}.
Implicit Types (σ : run Any (CachedDataset.t Any D)) (v data : Any) (d : D).

(** X14. A failure of the cache write reaches the caller and leaves the
    cache body as it was, after the delegate has done its part.  In
    [_save], the delegate has accepted the value by then: the call raises
    the cache body's exception, and a load that follows still returns the
    value held before, if there was one, without reading the delegate.  In
    [_load], the delegate has been read by then: the call raises, the
    cache body stays empty, and the next load reads the delegate again. *)
Theorem cache_write_failure_is_raised σ v d' e :
  write_error σ v = Some e →
  (ds_save v (delegate σ) = (Ok tt, d') →
     ∃ σ1, _save v σ = (Raise e, σ1)
       ∧ delegate σ1 = d'
       ∧ _cache (subject σ1) = _cache (subject σ)
       ∧ ∀ old, cached σ = Some old →
           _load σ1 = (Ok old,
                       Run (subject σ1)
                           (trace σ1 ++ [Call Cache Exists; Call Cache Load;
                                         Call Cache Exists])))
  ∧ (cached σ = None → ds_load (delegate σ) = (Ok v, d') →
     ∃ σ1, _load σ = (Raise e, σ1)
       ∧ delegate σ1 = d'
       ∧ cached σ1 = None
       ∧ ∃ rest, trace (snd (_load σ1))
                 = trace σ1 ++ [Call Cache Exists; Call Dataset Load] ++ rest).
Proof.
  intros Hcopy. split.
  - intros Hsave. eexists. split; [exact (save_refused σ v d' e Hsave Hcopy)|].
    split; [done|]. split; [done|].
    intros old Hold. by apply load_hit.
  - intros Hc Hload. eexists.
    split; [exact (load_miss_refused σ v d' e Hc Hload Hcopy)|].
    split; [done|]. split; [done|].
    match goal with
    | |- ∃ rest, trace (snd (_load ?τ)) = _ =>
        destruct (load_miss_reads τ Hc) as (rest & Htrace & _); by exists rest
    end.
Qed.
End cache_write_failures.

(** * Further runs on the concrete delegate *)

Section further_runs.
Import Demo.
Local Open Scope positive_scope.

(** The file-like delegate persists its [content]. *)
Lemma file_persists_content : PersistentStore (Any := nat) content.
Proof.
  split.
  - intros [c [] n] r d'; unfold ds_load; simpl; unfold file_load; simpl.
    + by intros [= <- <-].
    + destruct c as [data|]; intros [= <- <-]; simpl; split; try done.
      by intros v [= ->].
  - intros v [c [] n] r d'; unfold ds_save; simpl; unfold file_save; simpl;
      by intros [= <- <-].
  - by intros [c o n].
  - by intros [c o n].
Defined.

(** The disk holds 7 and is read; it then comes to hold 9; the wrapper
    still answers 7 until released, then 9. *)
Lemma stale_read_then_release :
  let σ := Run (wrapper (disk 7) None) [] in
  let σ1 := snd (_load σ) in
  _load σ = (Ok 7%nat, σ1)
  ∧ ∃ σ3, _load (Run (with_dataset (disk 9) (subject σ1)) (trace σ1)) = (Ok 7%nat, σ3)
      ∧ delegate_loads (trace σ3) = delegate_loads (trace σ1)
      ∧ fst (_load (snd (_release σ3))) = Ok 9%nat.
Proof.
  intros σ σ1.
  assert (_load σ = (Ok 7%nat, σ1)) as Hfirst by reflexivity.
  split; [exact Hfirst|].
  destruct (cached_value_served_until_release σ 7%nat σ1 Hfirst (disk 9))
    as (σ3 & Hsecond & _ & Hcount & _ & Hreleased).
  exists σ3. split; [exact Hsecond|]. split; [exact Hcount|].
  assert (σ3 = snd (_load (Run (with_dataset (disk 9) (subject σ1)) (trace σ1))))
    as Hσ3 by (by rewrite Hsecond).
  apply (Hreleased 9%nat {| content := Some 9%nat; offline := false; handles := 1 |}).
  - reflexivity.
  - by rewrite Hσ3.
Defined.

(** Capturing the state of a wrapper with a filled cache body. *)
Lemma captured_wrapper_over_disk :
  let σ := Run (wrapper (disk 7) (Some 7%nat)) [] in
  _EPHEMERAL (subject σ) = true
  ∧ fst (__getstate__ render σ) = Ok (wrapper (disk 7) None)
  ∧ wrapper (disk 7) None = fresh (disk 7) None None
  ∧ ∀ t, fst (_load (Run (wrapper (disk 7) None) t)) = Ok 7%nat
         ∧ delegate_loads (trace (snd (_load (Run (wrapper (disk 7) None) t))))
           = (delegate_loads t + 1)%nat.
Proof.
  intros σ. split; [reflexivity|]. split; [reflexivity|].
  assert (_EPHEMERAL (subject σ) = true) as Hmark by reflexivity.
  assert (__getstate__ render σ = (Ok (wrapper (disk 7) None), snd (__getstate__ render σ)))
    as Hrun by reflexivity.
  destruct (captured_state_is_fresh render factory σ _ _ Hmark Hrun)
    as (Hfresh & _ & Hload).
  split; [exact Hfresh|exact Hload].
Defined.

(** Existence after a load, the device being unreachable by then. *)
Lemma exists_after_load_unplugged :
  let σ := Run (wrapper (disk 7) None) [] in
  fst (_load σ) = Ok 7%nat
  ∧ fst (_exists (Run (with_dataset (unplugged 7) (subject (snd (_load σ)))) [])) = Ok true.
Proof.
  intros σ. split; [reflexivity|].
  destruct (exists_after_load_or_save σ) as (Hload & _).
  assert (_load σ = (Ok 7%nat, snd (_load σ))) as Hrun by reflexivity.
  by rewrite (Hload 7%nat _ Hrun (unplugged 7) []).
Defined.

(** A save of 3, then a save of 4 refused by an unreachable device. *)
Lemma refused_save_serves_previous :
  let σ := Run (wrapper (disk 7) None) [] in
  let σ1 := snd (_save 3%nat σ) in
  let σ2 := snd (_save 4%nat (Run (with_dataset (unplugged 3) (subject σ1)) [])) in
  _save 3%nat σ = (Ok tt, σ1)
  ∧ _save 4%nat (Run (with_dataset (unplugged 3) (subject σ1)) []) = (Raise io_error, σ2)
  ∧ fst (_load σ2) = Ok 3%nat.
Proof.
  intros σ σ1 σ2. split; [reflexivity|]. split; [reflexivity|].
  assert (_save 3%nat σ = (Ok tt, σ1)) as Hfirst by reflexivity.
  assert (_save 4%nat (Run (with_dataset (unplugged 3) (subject σ1)) [])
          = (Raise io_error, σ2)) as Hsecond by reflexivity.
  by rewrite (load_after_two_saves σ 3%nat 4%nat σ1 (unplugged 3) [] _ σ2 Hfirst Hsecond).
Defined.

(** Calls on a wrapper constructed from the catalog entry. *)
Lemma constructed_wrapper_stays_ephemeral :
  let built := __init__ (Any := nat) factory (ADict 1) (Some latest) (Some "assign")
                 (Some entry) (Run memory []) in
  let self := fresh {| content := None; offline := false; handles := 0 |}
                (Some "assign") (Some entry) in
  fst built = Ok self
  ∧ _EPHEMERAL (subject (serve_all render [DoSave 2%nat; DoGetstate; DoLoad] (Run self [])))
    = true
  ∧ metadata (subject (serve_all render [DoSave 2%nat; DoGetstate; DoLoad] (Run self [])))
    = Some entry.
Proof.
  intros built self. split; [reflexivity|].
  assert (__init__ (Any := nat) factory (ADict 1) (Some latest) (Some "assign")
            (Some entry) (Run memory []) = (Ok self, snd built)) as Hbuilt by reflexivity.
  exact (constructed_attributes_persist render factory _ _ _ _ _ _ self
           [DoSave 2%nat; DoGetstate; DoLoad] [] Hbuilt).
Defined.

(** Loads, a save and an existence check over a filled cache body. *)
Lemma filled_cache_shields_disk :
  let σ := Run (wrapper (disk 7) (Some 7%nat)) [] in
  let rs := [DoLoad; DoSave 2%nat; DoExists; DoLoad] in
  is_Some (cached σ)
  ∧ forallb (λ r, negb (clears r)) rs = true
  ∧ is_Some (cached (serve_all render rs σ))
  ∧ delegate_queries (trace (serve_all render rs σ)) = [].
Proof.
  intros σ rs.
  assert (is_Some (cached σ)) as Hfilled by (by exists 7%nat).
  split; [exact Hfilled|]. split; [reflexivity|].
  assert (forallb (λ r, negb (clears r)) rs = true) as Hkeeps by reflexivity.
  exact (populated_cache_shields_delegate render rs σ Hfilled Hkeeps).
Defined.

(** A load, a save, a release and a load again over the disk. *)
Lemma wrapper_over_disk_stays_coherent :
  let σ := Run (wrapper (disk 7) None) [] in
  let rs := [DoLoad; DoSave 2%nat; DoRelease] in
  (∀ v, write_error σ v = None)
  ∧ coherent content σ
  ∧ coherent content (serve_all render rs σ)
  ∧ fst (_load (serve_all render rs σ)) = Ok 2%nat
  ∧ content (delegate (serve_all render rs σ)) = Some 2%nat.
Proof.
  intros σ rs.
  assert (coherent content σ) as Hinit by (intros x; discriminate).
  assert (∀ v, write_error σ v = None) as Htakes by (intros v; reflexivity).
  destruct (cache_never_diverges (Hstore := file_persists_content) render content rs σ
              Htakes Hinit) as (Hcoh & Hload).
  split; [exact Htakes|].
  split; [exact Hinit|]. split; [exact Hcoh|]. split; [reflexivity|].
  assert (_load (serve_all render rs σ) = (Ok 2%nat, snd (_load (serve_all render rs σ))))
    as Hrun by reflexivity.
  exact (Hload 2%nat _ Hrun).
Defined.

(** Construction from the catalog entry with a version pair, and with a
    factory that refuses every configuration. *)
Lemma factory_outcome_is_construction_outcome :
  let refuse (name : string) (config : dict) (lv sv : option string) : result file :=
    Raise (DatasetError "Class not found") in
  let marked := <[VERSIONED_FLAG_KEY := PyBool true]> entry in
  deref memory 1 !! VERSIONED_FLAG_KEY = None
  ∧ __init__ (Any := nat) factory (ADict 1) (Some latest) None None (Run memory [])
    = (Ok (fresh {| content := None; offline := false; handles := 0 |} None None),
       Run (<[1 := marked]> memory) [Resolve "_cached" marked None None])
  ∧ __init__ (Any := nat) refuse (ADict 1) (Some latest) None None (Run memory [])
    = (Raise (DatasetError "Class not found"),
       Run (<[1 := marked]> memory) [Resolve "_cached" marked None None]).
Proof.
  intros refuse marked.
  assert (deref memory 1 !! VERSIONED_FLAG_KEY = None) as Hkey by reflexivity.
  split; [exact Hkey|]. split.
  - exact (config_construction_outcome factory memory [] 1 (Some latest) None None Hkey).
  - exact (config_construction_outcome refuse memory [] 1 (Some latest) None None Hkey).
Defined.

(** First use of a wrapper constructed over the disk. *)
Lemma first_load_reads_disk :
  let built := __init__ (Any := nat) factory (ADataset (disk 7)) None None None
                 (Run memory []) in
  fst built = Ok (fresh (disk 7) None None)
  ∧ fst (_load (Run (fresh (disk 7) None None) [])) = Ok 7%nat
  ∧ delegate_loads (trace (snd (_load (Run (Any := nat) (fresh (disk 7) None None) []))))
    = 1%nat
  ∧ fst (_exists (Run (fresh (disk 7) None None) [])) = Ok true.
Proof.
  intros built. split; [reflexivity|].
  assert (__init__ (Any := nat) factory (ADataset (disk 7)) None None None (Run memory [])
          = (Ok (fresh (disk 7) None None), snd built)) as Hbuilt by reflexivity.
  exact (first_use_goes_to_delegate factory _ _ _ _ _ _ _ [] Hbuilt).
Defined.

(** A wrapper with the copy mode "copy" whose cache body holds 1: the disk
    takes 3, the cache body refuses it, and the wrapper goes on answering
    1 while the disk holds 3. *)
Lemma refused_cache_write_leaves_old_value :
  let refused := DatasetError "'int' object has no attribute 'copy'" in
  let self := with_cache {| MemoryDataset._data := Some 1%nat;
                            MemoryDataset._copy_mode := Some "copy" |}
                (fresh (disk 7) (Some "copy") None) in
  let σ := Run self [] in
  write_error σ 3%nat = Some refused
  ∧ fst (ds_save 3%nat (delegate σ)) = Ok tt
  ∧ ∃ σ1, _save 3%nat σ = (Raise refused, σ1)
      ∧ content (delegate σ1) = Some 3%nat
      ∧ fst (_load σ1) = Ok 1%nat.
Proof.
  intros refused self σ.
  assert (write_error σ 3%nat = Some refused) as Hcopy by reflexivity.
  assert (ds_save 3%nat (delegate σ)
          = (Ok tt, {| content := Some 3%nat; offline := false; handles := 2 |}))
    as Hsave by reflexivity.
  split; [exact Hcopy|]. split; [reflexivity|].
  destruct (cache_write_failure_is_raised σ 3%nat
              {| content := Some 3%nat; offline := false; handles := 2 |} refused Hcopy)
    as (Hraised & _).
  destruct (Hraised Hsave) as (σ1 & Hrun & Hdel & _ & Hload).
  exists σ1. split; [exact Hrun|]. split; [by rewrite Hdel|].
  by rewrite (Hload 1%nat).
Defined.
End further_runs.

Section existence_failures.
Context {Any D : Type} `{!AbstractDataset Any D} `{!CopyPolicy Any}.
Implicit Types (σ : run Any (CachedDataset.t Any D)).

(** X13. An exception leaves [_exists] only when the cache body is empty
    and the delegate's [exists] raised; it is that very exception, and the
    cache body is as it was.  With data in the cache body [_exists] cannot
    fail. *)
Theorem exists_failure_is_the_delegates σ e σ' :
  _exists σ = (Raise e, σ') →
  cached σ = None
  ∧ fst (ds_exists (delegate σ)) = Raise e
  ∧ σ' = Run (with_dataset (snd (ds_exists (delegate σ))) (subject σ))
             (trace σ ++ [Call Cache Exists; Call Dataset Exists])
  ∧ _cache (subject σ') = _cache (subject σ).
Proof.
  intros Hrun. destruct (cached σ) as [c|] eqn:Hc.
  - by rewrite (exists_hit σ c Hc) in Hrun.
  - rewrite (exists_miss σ Hc) in Hrun. injection Hrun as Hres <-.
    by rewrite Hres.
Qed.
End existence_failures.

Section unreachable_runs.
Import Demo Unreachable.

(** An existence check on an empty cache body over a delegate out of
    reach. *)
Lemma exists_over_unreachable_raises :
  let σ := Run (Unreachable.wrapper None) [] in
  _exists σ = (Raise Demo.io_error, Run (Unreachable.wrapper None)
                                        [Call Cache Exists; Call Dataset Exists])
  ∧ cached σ = None
  ∧ fst (ds_exists (delegate σ)) = Raise Demo.io_error
  ∧ fst (_exists (Run (Unreachable.wrapper (Some 5)) [])) = Ok true.
Proof.
  intros σ.
  assert (_exists σ = (Raise Demo.io_error,
                       Run (Unreachable.wrapper None)
                           [Call Cache Exists; Call Dataset Exists])) as Hrun
    by reflexivity.
  split; [exact Hrun|].
  destruct (exists_failure_is_the_delegates σ _ _ Hrun) as (Hempty & Hdelegate & _).
  split; [exact Hempty|]. split; [exact Hdelegate|]. reflexivity.
Defined.
End unreachable_runs.
